(** * inventory_dynamic.py: the dynamic inventory script, embedded and verified

    The script builds one inventory document from the process environment
    and prints it as JSON.  Python values are embedded as a small inductive
    type, dictionaries as insertion-ordered association lists (the order is
    what [json.dumps] prints), [os.environ] as a finite map, and the
    top-level script as a computation that writes to standard output and may
    raise. *)

From Stdlib Require Import String Ascii.
From stdpp Require Import gmap list.

Local Open Scope string_scope.
Local Open Scope list_scope.
Local Open Scope N_scope.

(** ** Python strings *)

(** A Python [str] is a sequence of Unicode code points. *)
Definition str : Type := list N.

Fixpoint lit (s : string) : str :=
  match s with
  | EmptyString => []
  | String a s' => N_of_ascii a :: lit s'
  end.
Coercion lit : string >-> str.
Arguments lit : simpl never.

#[global] Instance str_eq_dec : EqDecision str := list_eq_dec.
#[global] Instance str_countable : Countable str := list_countable.

(** ** Python values the script builds *)

#[warnings="-register-all"] Inductive json : Type :=
| JNull
| JStr (s : str)
| JList (l : list json)
| JDict (d : list (str * json)).

(** A [dict] keeps its keys in insertion order. *)
Definition dict : Type := list (str * json).

Fixpoint dict_get (d : dict) (k : str) : option json :=
  match d with
  | [] => None
  | (k', v) :: d' => if decide (k' = k) then Some v else dict_get d' k
  end.

(** [d[k] = v]: an existing key keeps its position, a new key goes last. *)
Fixpoint dict_setitem (d : dict) (k : str) (v : json) : dict :=
  match d with
  | [] => [(k, v)]
  | (k', v') :: d' =>
      if decide (k' = k) then (k', v) :: d' else (k', v') :: dict_setitem d' k v
  end.

(** [d.update(other)]: one [d[k] = v] per item of [other], in order. *)
Definition dict_update (d other : dict) : dict :=
  foldl (fun acc kv => dict_setitem acc kv.1 kv.2) d other.

Definition dict_keys (d : dict) : list str := map fst d.

(** ** The process environment *)

Abbreviation environ := (gmap str str).

(** [os.getenv(key)]: [None] when the variable is unset. *)
Definition getenv (env : environ) (key : str) : option str := env !! key.

(** [os.getenv(key, default)]. *)
Definition getenv_default (env : environ) (key default : str) : str :=
  match env !! key with
  | Some v => v
  | None => default
  end.

(** An optional string as a Python value: [None] or the string. *)
Definition of_opt (o : option str) : json :=
  match o with
  | Some s => JStr s
  | None => JNull
  end.

(** ** The inventory builder *)

Inductive adapter : Type := AWS | DigitalOcean | Static.

Definition get_aws_inventory (_ : unit) : dict := [].

Definition get_do_inventory (_ : unit) : dict := [].

(** [get_inventory], together with the branch of the source selector it
    ran: the adapter functions it called, or [Static] for the inline
    default block. *)
Definition get_inventory_run (env : environ) : list adapter * dict :=
  let inventory : dict :=
    [ ("_meta" : str, JDict [ ("hostvars" : str, JDict []) ]) ] in
  if decide (getenv env "ANSIBLE_INVENTORY_SOURCE" = Some ("aws" : str)) then
    ([AWS], dict_update inventory (get_aws_inventory tt))
  else if decide (getenv env "ANSIBLE_INVENTORY_SOURCE" = Some ("digitalocean" : str)) then
    ([DigitalOcean], dict_update inventory (get_do_inventory tt))
  else
    ([Static],
     dict_update inventory
       [ ("servers" : str,
          JDict
            [ ("hosts" : str, JList [ JStr "dev-server" ]);
              ("vars" : str,
               JDict
                 [ ("ansible_user" : str,
                    JStr (getenv_default env "ANSIBLE_USER" "ansible"));
                   ("ansible_become_password" : str,
                    of_opt (getenv env "ANSIBLE_PASSWORD")) ]) ]);
         ("_meta" : str,
          JDict
            [ ("hostvars" : str,
               JDict
                 [ ("dev-server" : str,
                    JDict
                      [ ("ansible_host" : str, JStr "192.168.88.2");
                        ("ansible_password" : str,
                         of_opt (getenv env "ANSIBLE_PASSWORD")) ]) ]) ]) ]).

Definition get_inventory (env : environ) : dict := (get_inventory_run env).2.

Definition adapters_used (env : environ) : list adapter := (get_inventory_run env).1.

(** ** [json.dumps] *)

(** One lower-case hexadecimal digit, as a character. *)
Definition hex_digit (n : N) : N := if n <? 10 then 48 + n else 87 + n.

(** ['{0:04x}'.format(n)] for [n < 0x10000]. *)
Definition hex4 (n : N) : str :=
  [ hex_digit (n / 4096 mod 16); hex_digit (n / 256 mod 16);
    hex_digit (n / 16 mod 16); hex_digit (n mod 16) ].

(** The replacement of one character by [py_encode_basestring_ascii]:
    the short escapes of [ESCAPE_DCT], the printable ASCII characters
    unchanged, and a [\uXXXX] escape (a surrogate pair above the basic
    plane) for everything else. *)
Definition escape_char (c : N) : str :=
  if c =? 92 then [92; 92]
  else if c =? 34 then [92; 34]
  else if c =? 8 then [92; 98]
  else if c =? 12 then [92; 102]
  else if c =? 10 then [92; 110]
  else if c =? 13 then [92; 114]
  else if c =? 9 then [92; 116]
  else if (32 <=? c) && (c <=? 126) then [c]
  else if c <? 65536 then [92; 117] ++ hex4 c
  else
    let n := c - 65536 in
    let s1 := N.lor 55296 (N.land (N.shiftr n 10) 1023) in
    let s2 := N.lor 56320 (N.land n 1023) in
    [92; 117] ++ hex4 s1 ++ [92; 117] ++ hex4 s2.

Definition encode_basestring_ascii (s : str) : str :=
  [34] ++ concat (map escape_char s) ++ [34].

Fixpoint join (sep : str) (l : list str) : str :=
  match l with
  | [] => []
  | [x] => x
  | x :: l' => x ++ sep ++ join sep l'
  end.

(** The line break and indentation before an item at nesting depth
    [level]; nothing when no [indent] is given. *)
Definition newline_indent (indent : option nat) (level : nat) : str :=
  match indent with
  | Some n => 10 :: repeat 32 (n * level)%nat
  | None => []
  end.

(** [','] with an [indent], [', '] without. *)
Definition item_separator (indent : option nat) : str :=
  match indent with
  | Some _ => ","
  | None => ", "
  end.

Definition key_separator : str := ": ".

Fixpoint iterencode (indent : option nat) (level : nat) (o : json) : str :=
  match o with
  | JNull => "null"
  | JStr s => encode_basestring_ascii s
  | JList l =>
      match l with
      | [] => "[]"
      | _ =>
          ("[" : str) ++ newline_indent indent (S level)
          ++ join (item_separator indent ++ newline_indent indent (S level))
               (map (iterencode indent (S level)) l)
          ++ newline_indent indent level ++ ("]" : str)
      end
  | JDict d =>
      match d with
      | [] => "{}"
      | _ =>
          ("{" : str) ++ newline_indent indent (S level)
          ++ join (item_separator indent ++ newline_indent indent (S level))
               (map (fun kv : str * json =>
                       let (k, v) := kv in
                       encode_basestring_ascii k ++ key_separator
                       ++ iterencode indent (S level) v) d)
          ++ newline_indent indent level ++ ("}" : str)
      end
  end.

(** [json.dumps(obj, indent=indent)] with the other options at their
    defaults. *)
Definition dumps (obj : json) (indent : option nat) : str :=
  iterencode indent 0 obj.

(** ** The script: standard output and exceptions *)

Inductive exn : Type :=
| IndexError
| SystemExit (code : Z).

Inductive res (A : Type) : Type :=
| Ok (a : A)
| Raise (e : exn).
Arguments Ok {A} a.
Arguments Raise {A} e.

(** A computation threads what was written to standard output so far and
    ends with a value or an exception.  Standard output is the text
    written, as a [str], before the stream encodes it. *)
Definition M (A : Type) : Type := str -> str * res A.

Definition ret {A} (a : A) : M A := fun out => (out, Ok a).

Definition bind {A B} (m : M A) (k : A -> M B) : M B :=
  fun out =>
    match m out with
    | (out', Ok a) => k a out'
    | (out', Raise e) => (out', Raise e)
    end.

Notation "x <- m ;; k" := (bind m (fun x => k))
  (at level 100, m at level 99, k at level 100, right associativity).
Notation "m ;;; k" := (bind m (fun _ => k))
  (at level 100, k at level 100, right associativity).

Definition raise {A} (e : exn) : M A := fun out => (out, Raise e).

(** [print(s)]. *)
Definition print (s : str) : M unit := fun out => (out ++ s ++ [10], Ok tt).

(** [l[i]]. *)
Definition getitem (l : list str) (i : nat) : M str :=
  match l !! i with
  | Some x => ret x
  | None => raise IndexError
  end.

(** [sys.exit(code)]. *)
Definition sys_exit (code : Z) : M unit := raise (SystemExit code).

(** ["Usage: {} --list or {} --host <hostname>".format(a, b)]. *)
Definition usage_format (a b : str) : str :=
  ("Usage: " : str) ++ a ++ (" --list or " : str) ++ b
  ++ (" --host <hostname>" : str).

(** The [if __name__ == '__main__'] block, on [sys.argv] and the
    environment.  The interpreter always supplies [sys.argv[0]], so the
    properties below take [sys.argv] as [prog :: args]. *)
Definition main (argv : list str) (env : environ) : M unit :=
  is_list <-
    (if bool_decide (length argv = 2%nat)
     then a1 <- getitem argv 1 ;; ret (bool_decide (a1 = ("--list" : str)))
     else ret false) ;;
  if is_list : bool then
    print (dumps (JDict (get_inventory env)) (Some 2%nat))
  else
    is_host <-
      (if bool_decide (length argv = 3%nat)
       then a1 <- getitem argv 1 ;; ret (bool_decide (a1 = ("--host" : str)))
       else ret false) ;;
    if is_host : bool then
      print (dumps (JDict []) None)
    else
      a <- getitem argv 0 ;;
      b <- getitem argv 0 ;;
      print (usage_format a b) ;;;
      sys_exit 1.

(** What the operating system sees of one run. *)
Record outcome : Type := { stdout : str; exit_code : Z }.

(** A run that ends normally exits with 0, [sys.exit(n)] with [n], any
    other uncaught exception with 1 (its traceback goes to standard
    error, which is not recorded). *)
Definition run (argv : list str) (env : environ) : outcome :=
  match main argv env [] with
  | (out, Ok _) => {| stdout := out; exit_code := 0 |}
  | (out, Raise (SystemExit c)) => {| stdout := out; exit_code := c |}
  | (out, Raise IndexError) => {| stdout := out; exit_code := 1 |}
  end.

(** ** Reading an inventory document *)

(** [doc[k1][k2]...[kn]], when every step is a mapping that has the key. *)
Fixpoint lookup_path (o : json) (path : list str) : option json :=
  match path with
  | [] => Some o
  | k :: path' =>
      match o with
      | JDict d =>
          match dict_get d k with
          | Some o' => lookup_path o' path'
          | None => None
          end
      | _ => None
      end
  end.

(** The groups of a document: its top-level entries other than [_meta]. *)
Definition groups (doc : dict) : dict :=
  filter (fun kv => kv.1 ≠ ("_meta" : str)) doc.

Definition group_names (doc : dict) : list str := dict_keys (groups doc).

(** The strings of a list value. *)
Definition strings_of (o : json) : list str :=
  match o with
  | JList l =>
      flat_map (fun x => match x with JStr s => [s] | _ => [] end) l
  | _ => []
  end.

(** The hostnames in the [hosts] list of one group descriptor. *)
Definition group_hosts (g : json) : list str :=
  match lookup_path g [("hosts" : str)] with
  | Some l => strings_of l
  | None => []
  end.

(** Every hostname of every group. *)
Definition all_hosts (doc : dict) : list str :=
  flat_map (fun kv => group_hosts kv.2) (groups doc).

(** The mapping at [_meta.hostvars], when there is one. *)
Definition hostvars (doc : dict) : option dict :=
  match lookup_path (JDict doc) [("_meta" : str); ("hostvars" : str)] with
  | Some (JDict hv) => Some hv
  | _ => None
  end.

Definition hostvars_keys (doc : dict) : list str :=
  match hostvars doc with
  | Some hv => dict_keys hv
  | None => []
  end.

(** The per-host lookup the interface describes for [--host]: the
    mapping of [h] in [_meta.hostvars], the empty mapping for a host that
    has none. *)
Definition host_vars (doc : dict) (h : str) : dict :=
  match lookup_path (JDict doc) [("_meta" : str); ("hostvars" : str); h] with
  | Some (JDict vars) => vars
  | _ => []
  end.

Definition is_dict (o : json) : bool :=
  match o with
  | JDict _ => true
  | _ => false
  end.

Definition is_str (o : json) : bool :=
  match o with
  | JStr _ => true
  | _ => false
  end.

(** A group descriptor: [hosts] is a list of strings, [vars] a mapping. *)
Definition well_formed_group (g : json) : bool :=
  match lookup_path g [("hosts" : str)], lookup_path g [("vars" : str)] with
  | Some (JList hs), Some (JDict _) => forallb is_str hs
  | _, _ => false
  end.

(** The output schema: distinct top-level keys, every group a group
    descriptor, and [_meta.hostvars] a mapping from hostnames to
    mappings. *)
Definition well_formed_document (doc : dict) : bool :=
  bool_decide (NoDup (dict_keys doc))
  && forallb (fun kv => well_formed_group kv.2) (groups doc)
  && match hostvars doc with
     | Some hv => forallb (fun kv => is_dict kv.2) hv
     | None => false
     end.

(** ** The two documents the builder can return *)

(** The base document [get_inventory] starts from. *)
Definition base_document : dict :=
  [ ("_meta" : str, JDict [ ("hostvars" : str, JDict []) ]) ].

(** The fixed [servers]/[dev-server] structure, with the two values that
    come from the environment left open. *)
Definition static_document (user : str) (password : json) : dict :=
  [ ("_meta" : str,
     JDict
       [ ("hostvars" : str,
          JDict
            [ ("dev-server" : str,
               JDict
                 [ ("ansible_host" : str, JStr "192.168.88.2");
                   ("ansible_password" : str, password) ]) ]) ]);
    ("servers" : str,
     JDict
       [ ("hosts" : str, JList [ JStr "dev-server" ]);
         ("vars" : str,
          JDict
            [ ("ansible_user" : str, JStr user);
              ("ansible_become_password" : str, password) ]) ]) ].

(** The source selector names neither provider. *)
Definition selects_static (env : environ) : Prop :=
  getenv env "ANSIBLE_INVENTORY_SOURCE" ≠ Some ("aws" : str)
  ∧ getenv env "ANSIBLE_INVENTORY_SOURCE" ≠ Some ("digitalocean" : str).

#[global] Instance selects_static_dec env : Decision (selects_static env).
Proof. unfold selects_static. apply _. Defined.

(** The source selector names one of the two providers. *)
Definition selects_provider (env : environ) : Prop :=
  getenv env "ANSIBLE_INVENTORY_SOURCE" = Some ("aws" : str)
  ∨ getenv env "ANSIBLE_INVENTORY_SOURCE" = Some ("digitalocean" : str).

(** The characters of an ASCII text file: the line feed and the printable
    characters from the space to the tilde. *)
Definition printable (c : N) : Prop := c = 10 ∨ (32 ≤ c ∧ c ≤ 126).

#[global] Instance printable_dec c : Decision (printable c).
Proof. unfold printable. apply _. Defined.

(** * Properties *)

(** ** Dictionaries *)

Lemma dict_get_setitem (d : dict) (k k' : str) (v : json) :
  dict_get (dict_setitem d k v) k' =
  if decide (k = k') then Some v else dict_get d k'.
Proof.
  induction d as [|[k0 v0] d IH]; simpl.
  - repeat case_decide; congruence.
  - destruct (decide (k0 = k)) as [->|Hne]; simpl.
    + repeat case_decide; congruence.
    + rewrite IH. repeat case_decide; congruence.
Qed.

Lemma dict_update_nil (d : dict) : dict_update d [] = d.
Proof. reflexivity. Qed.

Lemma dict_get_update_absent (other d : dict) (k : str) :
  dict_get other k = None →
  dict_get (dict_update d other) k = dict_get d k.
Proof.
  revert d. induction other as [|[k0 v0] other IH]; intros d Hk; [done|].
  simpl in Hk. destruct (decide (k0 = k)) as [|Hne]; [done|].
  unfold dict_update in *. simpl. rewrite IH by done.
  rewrite dict_get_setitem. by rewrite decide_False.
Qed.

Lemma dict_get_None_keys (d : dict) (k : str) :
  dict_get d k = None ↔ k ∉ dict_keys d.
Proof.
  induction d as [|[k0 v0] d IH]; simpl.
  - split; [intros _; apply not_elem_of_nil | done].
  - rewrite not_elem_of_cons. destruct (decide (k0 = k)) as [->|Hne].
    + split; [done | intros [? _]; done].
    + rewrite IH. split; [intros ?; split; congruence | intros [_ ?]; done].
Qed.

Lemma dict_get_update_present (other d : dict) (k : str) (v : json) :
  NoDup (dict_keys other) →
  dict_get other k = Some v →
  dict_get (dict_update d other) k = Some v.
Proof.
  revert d. induction other as [|[k0 v0] other IH]; intros d Hnd Hk; [done|].
  simpl in Hnd, Hk. apply NoDup_cons in Hnd as [Hnotin Hnd].
  unfold dict_update in *. simpl.
  destruct (decide (k0 = k)) as [->|Hne].
  - injection Hk as ->.
    change (dict_get (dict_update (dict_setitem d k v) other) k = Some v).
    rewrite dict_get_update_absent by (by apply dict_get_None_keys).
    rewrite dict_get_setitem. by rewrite decide_True.
  - by apply IH.
Qed.

(** ** The builder, branch by branch *)

Lemma get_inventory_run_aws (env : environ) :
  getenv env "ANSIBLE_INVENTORY_SOURCE" = Some ("aws" : str) →
  get_inventory_run env = ([AWS], dict_update base_document (get_aws_inventory tt)).
Proof. intros H. unfold get_inventory_run. by rewrite decide_True. Qed.

Lemma get_inventory_run_do (env : environ) :
  getenv env "ANSIBLE_INVENTORY_SOURCE" = Some ("digitalocean" : str) →
  get_inventory_run env =
  ([DigitalOcean], dict_update base_document (get_do_inventory tt)).
Proof.
  intros H. unfold get_inventory_run.
  rewrite decide_False by (rewrite H; discriminate).
  by rewrite decide_True.
Qed.

Lemma get_inventory_run_static (env : environ) :
  selects_static env →
  get_inventory_run env =
  ([Static],
   static_document (getenv_default env "ANSIBLE_USER" "ansible")
     (of_opt (getenv env "ANSIBLE_PASSWORD"))).
Proof.
  intros [H1 H2]. unfold get_inventory_run.
  rewrite !decide_False by done.
  generalize (getenv_default env "ANSIBLE_USER" "ansible").
  generalize (of_opt (getenv env "ANSIBLE_PASSWORD")).
  intros p u. f_equal.
Qed.

Lemma selects_cases (env : environ) :
  getenv env "ANSIBLE_INVENTORY_SOURCE" = Some ("aws" : str)
  ∨ getenv env "ANSIBLE_INVENTORY_SOURCE" = Some ("digitalocean" : str)
  ∨ selects_static env.
Proof.
  unfold selects_static.
  destruct (decide (getenv env "ANSIBLE_INVENTORY_SOURCE" = Some ("aws" : str)));
    [by left|].
  destruct (decide (getenv env "ANSIBLE_INVENTORY_SOURCE"
                    = Some ("digitalocean" : str))); [by right; left|].
  by right; right.
Qed.

Lemma get_inventory_static (env : environ) :
  selects_static env →
  get_inventory env =
  static_document (getenv_default env "ANSIBLE_USER" "ansible")
    (of_opt (getenv env "ANSIBLE_PASSWORD")).
Proof.
  intros H. unfold get_inventory. by rewrite get_inventory_run_static.
Qed.

Lemma get_inventory_provider (env : environ) :
  getenv env "ANSIBLE_INVENTORY_SOURCE" = Some ("aws" : str)
  ∨ getenv env "ANSIBLE_INVENTORY_SOURCE" = Some ("digitalocean" : str) →
  get_inventory env = base_document.
Proof.
  unfold get_inventory.
  intros [H|H]; [rewrite get_inventory_run_aws | rewrite get_inventory_run_do];
    done.
Qed.

(** ** The script, shape by shape *)

Lemma run_list (prog : str) (env : environ) :
  run [prog; ("--list" : str)] env =
  {| stdout := dumps (JDict (get_inventory env)) (Some 2%nat) ++ [10];
     exit_code := 0 |}.
Proof. reflexivity. Qed.

Lemma run_host (prog h : str) (env : environ) :
  run [prog; ("--host" : str); h] env =
  {| stdout := ("{}" : str) ++ [10]; exit_code := 0 |}.
Proof. reflexivity. Qed.

Lemma run_usage (prog : str) (args : list str) (env : environ) :
  args ≠ [("--list" : str)] →
  (∀ h, args ≠ [("--host" : str); h]) →
  run (prog :: args) env =
  {| stdout := usage_format prog prog ++ [10]; exit_code := 1 |}.
Proof.
  intros Hlist Hhost. unfold run, main, bind.
  destruct args as [|a [|b [|c rest]]]; simpl.
  - reflexivity.
  - destruct (decide (a = ("--list" : str))) as [->|Hne]; [done|].
    rewrite bool_decide_eq_false_2 by done. reflexivity.
  - destruct (decide (a = ("--host" : str))) as [->|Hne];
      [by destruct (Hhost b)|].
    rewrite bool_decide_eq_false_2 by done. reflexivity.
  - reflexivity.
Qed.

Lemma lookup_path_cons (d : dict) (k : str) (path : list str) :
  lookup_path (JDict d) (k :: path) =
  match dict_get d k with
  | Some o => lookup_path o path
  | None => None
  end.
Proof. reflexivity. Qed.

Lemma host_vars_base (h : str) : host_vars base_document h = [].
Proof. reflexivity. Qed.

Lemma host_vars_static (user : str) (password : json) (h : str) :
  host_vars (static_document user password) h =
  if decide (("dev-server" : str) = h)
  then [ ("ansible_host" : str, JStr "192.168.88.2");
         ("ansible_password" : str, password) ]
  else [].
Proof.
  unfold host_vars.
  destruct (decide (("dev-server" : str) = h)) as [<-|Hne]; [reflexivity|].
  rewrite lookup_path_cons.
  assert (dict_get (static_document user password) "_meta" =
          Some (JDict
                  [ ("hostvars" : str,
                     JDict
                       [ ("dev-server" : str,
                          JDict
                            [ ("ansible_host" : str, JStr "192.168.88.2");
                              ("ansible_password" : str, password) ]) ]) ]))
    as -> by reflexivity.
  rewrite lookup_path_cons.
  assert (∀ v, dict_get [ ("hostvars" : str, v) ] "hostvars" = Some v)
    as -> by reflexivity.
  rewrite lookup_path_cons. cbn [dict_get]. by rewrite decide_False.
Qed.

(** ** The model on concrete inputs *)

Example escape_newline : escape_char 10 = [92; 110].
Proof. reflexivity. Qed.

Example escape_latin : escape_char 233 = ("\u00e9" : str).
Proof. reflexivity. Qed.

Example escape_astral : escape_char 128512 = ("\ud83d\ude00" : str).
Proof. reflexivity. Qed.

Example dumps_empty_dict : dumps (JDict []) None = ("{}" : str).
Proof. reflexivity. Qed.

Example dumps_compact :
  dumps (JList [ JNull; JList []; JList [ JNull ] ]) None
  = ("[null, [], [null]]" : str).
Proof. reflexivity. Qed.

Example dumps_indented :
  dumps (JList [ JNull; JList [ JNull ] ]) (Some 2%nat)
  = ("[" : str) ++ [10] ++ ("  null," : str) ++ [10] ++ ("  [" : str) ++ [10]
    ++ ("    null" : str) ++ [10] ++ ("  ]" : str) ++ [10] ++ ("]" : str).
Proof. reflexivity. Qed.

Example update_keeps_position :
  dict_keys (dict_update [ ("a" : str, JNull); ("b" : str, JNull) ]
               [ ("c" : str, JNull); ("a" : str, JStr "x") ])
  = [("a" : str); ("b" : str); ("c" : str)].
Proof. reflexivity. Qed.

Example selector_is_case_sensitive :
  get_inventory {[ ("ANSIBLE_INVENTORY_SOURCE" : str) := ("AWS" : str) ]}
  = static_document "ansible" JNull.
Proof. by vm_compute. Qed.

Example selector_empty_is_static :
  adapters_used {[ ("ANSIBLE_INVENTORY_SOURCE" : str) := ("" : str) ]}
  = [Static].
Proof. by vm_compute. Qed.

Example user_override :
  lookup_path
    (JDict (get_inventory {[ ("ANSIBLE_USER" : str) := ("deploy" : str) ]}))
    [("servers" : str); ("vars" : str); ("ansible_user" : str)]
  = Some (JStr "deploy").
Proof. by vm_compute. Qed.

Example no_argument_is_usage :
  run [("inventory_dynamic.py" : str)] ∅
  = {| stdout :=
         ("Usage: inventory_dynamic.py --list or inventory_dynamic.py --host <hostname>"
          : str) ++ [10];
       exit_code := 1 |}.
Proof. by vm_compute. Qed.

Example extra_argument_is_usage :
  exit_code (run [("inventory_dynamic.py" : str); ("--list" : str);
                  ("extra" : str)] ∅) = 1%Z.
Proof. by vm_compute. Qed.

Example list_on_provider_stub :
  stdout (run [("inventory_dynamic.py" : str); ("--list" : str)]
            {[ ("ANSIBLE_INVENTORY_SOURCE" : str) := ("digitalocean" : str) ]})
  = ("{" : str) ++ [10; 32; 32; 34] ++ ("_meta" : str) ++ [34]
    ++ (": {" : str) ++ [10; 32; 32; 32; 32; 34] ++ ("hostvars" : str) ++ [34]
    ++ (": {}" : str) ++ [10] ++ ("  }" : str) ++ [10] ++ ("}" : str) ++ [10].
Proof. by vm_compute. Qed.

(** ** The claims *)

(** C1. For every environment the builder dispatches on the source
    selector: the exact value [aws] runs the AWS adapter, the exact value
    [digitalocean] runs the DigitalOcean adapter, and every other value,
    the unset variable included, gives the static [servers]/[dev-server]
    document with the values of the environment filled in.  Exactly one
    branch runs, so exactly one adapter is used. *)
Theorem get_inventory_dispatch (env : environ) :
  let src := getenv env "ANSIBLE_INVENTORY_SOURCE" in
  length (adapters_used env) = 1%nat
  ∧ ((src = Some ("aws" : str)
      ∧ adapters_used env = [AWS]
      ∧ get_inventory env = dict_update base_document (get_aws_inventory tt))
     ∨ (src = Some ("digitalocean" : str)
        ∧ adapters_used env = [DigitalOcean]
        ∧ get_inventory env = dict_update base_document (get_do_inventory tt))
     ∨ (src ≠ Some ("aws" : str)
        ∧ src ≠ Some ("digitalocean" : str)
        ∧ adapters_used env = [Static]
        ∧ get_inventory env =
          static_document
            (match getenv env "ANSIBLE_USER" with
             | Some u => u
             | None => "ansible"
             end)
            (match getenv env "ANSIBLE_PASSWORD" with
             | Some p => JStr p
             | None => JNull
             end))).
Proof.
  intros src. subst src. unfold adapters_used, get_inventory.
  destruct (selects_cases env) as [H|[H|H]].
  - rewrite (get_inventory_run_aws env H). split; [done|]. by left.
  - rewrite (get_inventory_run_do env H). split; [done|]. by right; left.
  - rewrite (get_inventory_run_static env H). split; [done|].
    right; right. by destruct H.
Qed.

(** C2. On the static path the document has exactly one group, [servers];
    its [hosts] list is exactly [dev-server]; its [vars] map
    [ansible_user] to ANSIBLE_USER (or ["ansible"] when unset) and
    [ansible_become_password] to ANSIBLE_PASSWORD; and [_meta.hostvars]
    has exactly one entry, [dev-server], with [ansible_host] the fixed
    address 192.168.88.2 and [ansible_password] the value of
    ANSIBLE_PASSWORD. *)
Theorem static_document_contents (env : environ) (Hsel : selects_static env) :
  let doc := get_inventory env in
  let user := match getenv env "ANSIBLE_USER" with
              | Some u => u
              | None => ("ansible" : str)
              end in
  let password := match getenv env "ANSIBLE_PASSWORD" with
                  | Some p => JStr p
                  | None => JNull
                  end in
  dict_keys doc = [("_meta" : str); ("servers" : str)]
  ∧ group_names doc = [("servers" : str)]
  ∧ lookup_path (JDict doc) [("servers" : str)] =
    Some (JDict
            [ ("hosts" : str, JList [ JStr "dev-server" ]);
              ("vars" : str,
               JDict [ ("ansible_user" : str, JStr user);
                       ("ansible_become_password" : str, password) ]) ])
  ∧ lookup_path (JDict doc) [("_meta" : str)] =
    Some (JDict
            [ ("hostvars" : str,
               JDict
                 [ ("dev-server" : str,
                    JDict [ ("ansible_host" : str, JStr "192.168.88.2");
                            ("ansible_password" : str, password) ]) ]) ])
  ∧ hostvars_keys doc = [("dev-server" : str)].
Proof.
  intros doc user password. subst doc.
  rewrite (get_inventory_static env Hsel).
  change (getenv_default env "ANSIBLE_USER" "ansible") with user.
  change (of_opt (getenv env "ANSIBLE_PASSWORD")) with password.
  clearbody user password. repeat split.
Qed.

Lemma static_document_contents_witness :
  let doc := get_inventory ∅ in
  dict_keys doc = [("_meta" : str); ("servers" : str)]
  ∧ group_names doc = [("servers" : str)]
  ∧ lookup_path (JDict doc) [("servers" : str)] =
    Some (JDict
            [ ("hosts" : str, JList [ JStr "dev-server" ]);
              ("vars" : str,
               JDict [ ("ansible_user" : str, JStr "ansible");
                       ("ansible_become_password" : str, JNull) ]) ])
  ∧ lookup_path (JDict doc) [("_meta" : str)] =
    Some (JDict
            [ ("hostvars" : str,
               JDict
                 [ ("dev-server" : str,
                    JDict [ ("ansible_host" : str, JStr "192.168.88.2");
                            ("ansible_password" : str, JNull) ]) ]) ])
  ∧ hostvars_keys doc = [("dev-server" : str)].
Proof.
  assert (Hsel : selects_static ∅) by (vm_compute; split; discriminate).
  exact (static_document_contents ∅ Hsel).
Defined.

(** C3, as the code has it.  For every hostname and every environment
    [--host <hostname>] prints the empty JSON mapping and exits with code
    0.  That is the host's entry of [_meta.hostvars] in the [--list]
    document exactly when the host has no entry there: always, except for
    [dev-server] under the static source. *)
Theorem host_query_prints_empty_mapping (prog h : str) (env : environ) :
  run [prog; ("--host" : str); h] env =
  {| stdout := dumps (JDict []) None ++ [10]; exit_code := 0 |}
  ∧ (host_vars (get_inventory env) h = []
     ↔ ¬ (selects_static env ∧ h = ("dev-server" : str))).
Proof.
  split; [reflexivity|].
  destruct (selects_cases env) as [H|[H|H]].
  - rewrite get_inventory_provider by (by left). rewrite host_vars_base.
    split; [|done]. intros _ [[Hs _] _]. done.
  - rewrite get_inventory_provider by (by right). rewrite host_vars_base.
    split; [|done]. intros _ [[_ Hs] _]. done.
  - rewrite get_inventory_static by done. rewrite host_vars_static.
    destruct (decide (("dev-server" : str) = h)) as [<-|Hne].
    + split; [done|]. intros Hn. destruct Hn. done.
    + split; [|done]. intros _ [_ ->]. done.
Qed.

(** C3, where the claim fails: under the static source the [--list]
    document gives [dev-server] two variables, and [--host dev-server]
    prints the empty mapping, not them. *)
Lemma host_query_ignores_hostvars :
  host_vars (get_inventory ∅) "dev-server" =
  [ ("ansible_host" : str, JStr "192.168.88.2");
    ("ansible_password" : str, JNull) ]
  ∧ stdout (run [("inventory_dynamic.py" : str); ("--host" : str);
                 ("dev-server" : str)] ∅)
    = ("{}" : str) ++ [10]
  ∧ stdout (run [("inventory_dynamic.py" : str); ("--host" : str);
                 ("dev-server" : str)] ∅)
    ≠ dumps (JDict (host_vars (get_inventory ∅) "dev-server")) None ++ [10]
  ∧ stdout (run [("inventory_dynamic.py" : str); ("--host" : str);
                 ("dev-server" : str)] ∅)
    ≠ dumps (JDict (host_vars (get_inventory ∅) "dev-server")) (Some 2%nat)
      ++ [10].
Proof.
  split; [by vm_compute|]. split; [by vm_compute|].
  split; vm_compute; discriminate.
Qed.

(** C4. The script exits with code 0, having printed JSON, exactly when
    it is called as [--list] alone or as [--host <hostname>]; every other
    call (no argument, another flag, further arguments) prints the usage
    line to standard output and exits with code 1. *)
Theorem run_exit_shapes (prog : str) (args : list str) (env : environ) :
  ((args = [("--list" : str)]
    ∧ run (prog :: args) env =
      {| stdout := dumps (JDict (get_inventory env)) (Some 2%nat) ++ [10];
         exit_code := 0 |})
   ∨ (∃ h, args = [("--host" : str); h]
      ∧ run (prog :: args) env =
        {| stdout := dumps (JDict []) None ++ [10]; exit_code := 0 |})
   ∨ (args ≠ [("--list" : str)]
      ∧ (∀ h, args ≠ [("--host" : str); h])
      ∧ run (prog :: args) env =
        {| stdout :=
             ("Usage: " : str) ++ prog ++ (" --list or " : str) ++ prog
             ++ (" --host <hostname>" : str) ++ [10];
           exit_code := 1 |}))
  ∧ (exit_code (run (prog :: args) env) = 0%Z
     ↔ args = [("--list" : str)] ∨ ∃ h, args = [("--host" : str); h]).
Proof.
  destruct (decide (args = [("--list" : str)])) as [->|Hl].
  { split; [left; split; [done | apply run_list] | ].
    split; [by left | done]. }
  assert (Hh : (∃ h, args = [("--host" : str); h])
               ∨ (∀ h, args ≠ [("--host" : str); h])).
  { destruct args as [|a [|b [|c rest]]]; try (right; intros h; discriminate).
    destruct (decide (a = ("--host" : str))) as [->|Hne];
      [left; by exists b | right; intros h [= ? ?]; done]. }
  destruct Hh as [[h ->]|Hh'].
  { split; [right; left; exists h; split; [done | apply run_host] | ].
    split; [right; by exists h | done]. }
  pose proof (run_usage prog args env Hl Hh') as Hrun.
  split.
  - right; right. split; [done|]. split; [done|]. rewrite Hrun.
    unfold usage_format. by rewrite <- !app_assoc.
  - rewrite Hrun. simpl. split; [intros [=] | ].
    intros [?|[h ?]]; [done | by destruct (Hh' h)].
Qed.

(** C5. For every environment the document the builder returns, which is
    the one [--list] prints, has a [_meta] key whose value is a mapping
    with a [hostvars] key whose value is a mapping. *)
Theorem meta_hostvars_is_mapping (env : environ) :
  ∃ meta hv : dict,
    dict_get (get_inventory env) "_meta" = Some (JDict meta)
    ∧ dict_get meta "hostvars" = Some (JDict hv)
    ∧ ∀ prog : str,
        run [prog; ("--list" : str)] env =
        {| stdout := dumps (JDict (get_inventory env)) (Some 2%nat) ++ [10];
           exit_code := 0 |}.
Proof.
  assert (∃ meta hv : dict,
            dict_get (get_inventory env) "_meta" = Some (JDict meta)
            ∧ dict_get meta "hostvars" = Some (JDict hv))
    as (meta & hv & Hmeta & Hhv).
  { destruct (selects_cases env) as [H|[H|H]].
    - rewrite get_inventory_provider by (by left).
      eexists _, _. split; reflexivity.
    - rewrite get_inventory_provider by (by right).
      eexists _, _. split; reflexivity.
    - rewrite get_inventory_static by done.
      eexists _, _. split; reflexivity. }
  exists meta, hv. split; [done|]. split; [done|].
  intros prog. apply run_list.
Qed.

(** C6. Both provider adapters return the empty mapping.  The builder
    merges a partial result key by key at the top level: a key of the
    partial result takes its value, every other key keeps the value it
    had.  So with the selector at [aws] or [digitalocean] the document is
    exactly the base document, an empty [_meta.hostvars] and nothing
    else. *)
Theorem provider_stubs_give_base_document (env : environ)
    (Hsel : getenv env "ANSIBLE_INVENTORY_SOURCE" = Some ("aws" : str)
            ∨ getenv env "ANSIBLE_INVENTORY_SOURCE"
              = Some ("digitalocean" : str)) :
  get_aws_inventory tt = []
  ∧ get_do_inventory tt = []
  ∧ (∀ (d other : dict) (k : str),
       NoDup (dict_keys other) →
       dict_get (dict_update d other) k =
       match dict_get other k with
       | Some v => Some v
       | None => dict_get d k
       end)
  ∧ get_inventory env =
    [ ("_meta" : str, JDict [ ("hostvars" : str, JDict []) ]) ].
Proof.
  split; [done|]. split; [done|]. split.
  - intros d other k Hnd. destruct (dict_get other k) as [v|] eqn:Hk.
    + by apply dict_get_update_present.
    + by apply dict_get_update_absent.
  - by apply get_inventory_provider.
Qed.

Lemma provider_stubs_give_base_document_witness :
  get_aws_inventory tt = []
  ∧ get_do_inventory tt = []
  ∧ (∀ (d other : dict) (k : str),
       NoDup (dict_keys other) →
       dict_get (dict_update d other) k =
       match dict_get other k with
       | Some v => Some v
       | None => dict_get d k
       end)
  ∧ get_inventory {[ ("ANSIBLE_INVENTORY_SOURCE" : str) := ("aws" : str) ]} =
    [ ("_meta" : str, JDict [ ("hostvars" : str, JDict []) ]) ].
Proof.
  apply (provider_stubs_give_base_document
           {[ ("ANSIBLE_INVENTORY_SOURCE" : str) := ("aws" : str) ]}).
  left. by vm_compute.
Defined.

(** C7. The document, and with it everything the script prints, is a
    function of the three variables ANSIBLE_INVENTORY_SOURCE, ANSIBLE_USER
    and ANSIBLE_PASSWORD alone: two environments that agree on them give
    equal documents and, for every argument vector, the same output and
    exit code. *)
Theorem output_depends_on_three_variables (env1 env2 : environ)
    (Hsource : getenv env1 "ANSIBLE_INVENTORY_SOURCE"
               = getenv env2 "ANSIBLE_INVENTORY_SOURCE")
    (Huser : getenv env1 "ANSIBLE_USER" = getenv env2 "ANSIBLE_USER")
    (Hpassword : getenv env1 "ANSIBLE_PASSWORD"
                 = getenv env2 "ANSIBLE_PASSWORD") :
  get_inventory env1 = get_inventory env2
  ∧ ∀ argv : list str, run argv env1 = run argv env2.
Proof.
  assert (Hdoc : get_inventory env1 = get_inventory env2).
  { unfold get_inventory, get_inventory_run, getenv_default.
    unfold getenv in *. by rewrite Hsource, Huser, Hpassword. }
  split; [done|]. intros argv. unfold run, main. by rewrite Hdoc.
Qed.

Lemma output_depends_on_three_variables_witness :
  get_inventory {[ ("ANSIBLE_PASSWORD" : str) := ("s3cret" : str) ]}
  = get_inventory
      (<[ ("HOME" : str) := ("/root" : str) ]>
         {[ ("ANSIBLE_PASSWORD" : str) := ("s3cret" : str) ]})
  ∧ ∀ argv : list str,
      run argv {[ ("ANSIBLE_PASSWORD" : str) := ("s3cret" : str) ]}
      = run argv
          (<[ ("HOME" : str) := ("/root" : str) ]>
             {[ ("ANSIBLE_PASSWORD" : str) := ("s3cret" : str) ]}).
Proof.
  apply (output_depends_on_three_variables
           {[ ("ANSIBLE_PASSWORD" : str) := ("s3cret" : str) ]}
           (<[ ("HOME" : str) := ("/root" : str) ]>
              {[ ("ANSIBLE_PASSWORD" : str) := ("s3cret" : str) ]}));
    by vm_compute.
Defined.

(** C8. The static path cannot fail.  For every environment that selects
    it the builder returns a document of the output schema and [--list]
    runs to the end without raising; an unset ANSIBLE_PASSWORD becomes
    [None] in both places it is used and an unset ANSIBLE_USER becomes the
    fallback name, so with both unset the document is still complete. *)
Theorem static_path_never_fails (env : environ) (Hsel : selects_static env) :
  let doc := get_inventory env in
  let password := match getenv env "ANSIBLE_PASSWORD" with
                  | Some p => JStr p
                  | None => JNull
                  end in
  well_formed_document doc = true
  ∧ (∀ prog : str,
       main [prog; ("--list" : str)] env [] =
       (dumps (JDict doc) (Some 2%nat) ++ [10], Ok tt))
  ∧ lookup_path (JDict doc)
      [("servers" : str); ("vars" : str); ("ansible_user" : str)] =
    Some (JStr (match getenv env "ANSIBLE_USER" with
                | Some u => u
                | None => "ansible"
                end))
  ∧ lookup_path (JDict doc)
      [("servers" : str); ("vars" : str); ("ansible_become_password" : str)] =
    Some password
  ∧ lookup_path (JDict doc)
      [("_meta" : str); ("hostvars" : str); ("dev-server" : str);
       ("ansible_password" : str)] =
    Some password
  ∧ (getenv env "ANSIBLE_USER" = None →
     getenv env "ANSIBLE_PASSWORD" = None →
     doc = static_document "ansible" JNull).
Proof.
  intros doc password. subst doc.
  split; [|split; [intros prog; reflexivity|]].
  - rewrite (get_inventory_static env Hsel). reflexivity.
  - rewrite (get_inventory_static env Hsel).
    change (of_opt (getenv env "ANSIBLE_PASSWORD")) with password.
    split; [reflexivity|]. split; [reflexivity|]. split; [reflexivity|].
    intros Hu Hp. subst password. unfold getenv_default, getenv in *.
    by rewrite Hu, Hp.
Qed.

Lemma static_path_never_fails_witness :
  well_formed_document (get_inventory ∅) = true
  ∧ (∀ prog : str,
       main [prog; ("--list" : str)] ∅ [] =
       (dumps (JDict (get_inventory ∅)) (Some 2%nat) ++ [10], Ok tt))
  ∧ lookup_path (JDict (get_inventory ∅))
      [("servers" : str); ("vars" : str); ("ansible_user" : str)] =
    Some (JStr "ansible")
  ∧ lookup_path (JDict (get_inventory ∅))
      [("servers" : str); ("vars" : str); ("ansible_become_password" : str)] =
    Some JNull
  ∧ lookup_path (JDict (get_inventory ∅))
      [("_meta" : str); ("hostvars" : str); ("dev-server" : str);
       ("ansible_password" : str)] =
    Some JNull
  ∧ (getenv ∅ "ANSIBLE_USER" = None →
     getenv ∅ "ANSIBLE_PASSWORD" = None →
     get_inventory ∅ = static_document "ansible" JNull).
Proof.
  assert (Hsel : selects_static ∅) by (vm_compute; split; discriminate).
  exact (static_path_never_fails ∅ Hsel).
Defined.

(** C9. For every environment, a hostname is in the [hosts] list of some
    group of the returned document exactly when it is a key of
    [_meta.hostvars]. *)
Theorem hosts_match_hostvars (env : environ) (h : str) :
  h ∈ all_hosts (get_inventory env) ↔ h ∈ hostvars_keys (get_inventory env).
Proof.
  assert (all_hosts (get_inventory env) = hostvars_keys (get_inventory env))
    as ->; [|done].
  destruct (selects_cases env) as [H|[H|H]].
  - rewrite get_inventory_provider by (by left). reflexivity.
  - rewrite get_inventory_provider by (by right). reflexivity.
  - rewrite get_inventory_static by done. reflexivity.
Qed.

(** C10. On the static path the group variable
    [servers.vars.ansible_become_password] and the host variable
    [_meta.hostvars.dev-server.ansible_password] hold the same value: the
    value of ANSIBLE_PASSWORD, [None] for both when it is unset. *)
Theorem static_passwords_agree (env : environ) (Hsel : selects_static env) :
  ∃ v : json,
    lookup_path (JDict (get_inventory env))
      [("servers" : str); ("vars" : str); ("ansible_become_password" : str)]
    = Some v
    ∧ lookup_path (JDict (get_inventory env))
        [("_meta" : str); ("hostvars" : str); ("dev-server" : str);
         ("ansible_password" : str)]
      = Some v
    ∧ v = match getenv env "ANSIBLE_PASSWORD" with
          | Some p => JStr p
          | None => JNull
          end.
Proof.
  rewrite (get_inventory_static env Hsel).
  exists (of_opt (getenv env "ANSIBLE_PASSWORD")).
  split; [reflexivity|]. split; reflexivity.
Qed.

Lemma static_passwords_agree_witness :
  ∃ v : json,
    lookup_path
      (JDict (get_inventory {[ ("ANSIBLE_PASSWORD" : str) := ("s3cret" : str) ]}))
      [("servers" : str); ("vars" : str); ("ansible_become_password" : str)]
    = Some v
    ∧ lookup_path
        (JDict
           (get_inventory {[ ("ANSIBLE_PASSWORD" : str) := ("s3cret" : str) ]}))
        [("_meta" : str); ("hostvars" : str); ("dev-server" : str);
         ("ansible_password" : str)]
      = Some v
    ∧ v = JStr "s3cret".
Proof.
  assert (Hsel : selects_static
                   {[ ("ANSIBLE_PASSWORD" : str) := ("s3cret" : str) ]})
    by (vm_compute; split; discriminate).
  destruct (static_passwords_agree _ Hsel) as (v & H1 & H2 & H3).
  exists v. split; [exact H1|]. split; [exact H2|].
  rewrite H3. by vm_compute.
Defined.

(** ** Further properties of the script *)

Lemma main_list (prog : str) (env : environ) (out : str) :
  main [prog; ("--list" : str)] env out =
  (out ++ dumps (JDict (get_inventory env)) (Some 2%nat) ++ [10], Ok tt).
Proof. reflexivity. Qed.

Lemma main_host (prog h : str) (env : environ) (out : str) :
  main [prog; ("--host" : str); h] env out =
  (out ++ dumps (JDict []) None ++ [10], Ok tt).
Proof. reflexivity. Qed.

Lemma main_usage (prog : str) (args : list str) (env : environ) (out : str) :
  args ≠ [("--list" : str)] →
  (∀ h, args ≠ [("--host" : str); h]) →
  main (prog :: args) env out =
  (out ++ usage_format prog prog ++ [10], Raise (SystemExit 1)).
Proof.
  intros Hlist Hhost. unfold main, bind.
  destruct args as [|a [|b [|c rest]]]; simpl.
  - reflexivity.
  - destruct (decide (a = ("--list" : str))) as [->|Hne]; [done|].
    rewrite bool_decide_eq_false_2 by done. reflexivity.
  - destruct (decide (a = ("--host" : str))) as [->|Hne];
      [by destruct (Hhost b)|].
    rewrite bool_decide_eq_false_2 by done. reflexivity.
  - reflexivity.
Qed.

Lemma args_shape (args : list str) :
  args = [("--list" : str)]
  ∨ (∃ h, args = [("--host" : str); h])
  ∨ (args ≠ [("--list" : str)] ∧ ∀ h, args ≠ [("--host" : str); h]).
Proof.
  destruct (decide (args = [("--list" : str)])) as [->|Hl]; [by left|].
  right. destruct args as [|a [|b [|c rest]]];
    try (right; split; [done | intros h; discriminate]).
  destruct (decide (a = ("--host" : str))) as [->|Hne].
  - left. by exists b.
  - right. split; [done|]. intros h [= ? ?]. done.
Qed.

(** X1. Only [--list] reads the environment: for every argument vector
    that is not [--list] alone, the output and the exit code are the same
    in any two environments. *)
Theorem environment_read_only_by_list (argv : list str) (env1 env2 : environ)
    (Hshape : ∀ prog : str, argv ≠ [prog; ("--list" : str)]) :
  run argv env1 = run argv env2.
Proof.
  destruct argv as [|prog args]; [reflexivity|].
  destruct (args_shape args) as [->|[[h ->]|[Hl Hh]]].
  - by destruct (Hshape prog).
  - reflexivity.
  - unfold run. by rewrite !main_usage.
Qed.

Lemma environment_read_only_by_list_witness :
  run [("inventory_dynamic.py" : str); ("--host" : str); ("dev-server" : str)] ∅
  = run [("inventory_dynamic.py" : str); ("--host" : str); ("dev-server" : str)]
      {[ ("ANSIBLE_PASSWORD" : str) := ("s3cret" : str) ]}.
Proof.
  apply (environment_read_only_by_list
           [("inventory_dynamic.py" : str); ("--host" : str);
            ("dev-server" : str)]
           ∅ {[ ("ANSIBLE_PASSWORD" : str) := ("s3cret" : str) ]}).
  intros prog. discriminate.
Defined.

(** X2. The index accesses of the script are guarded.  With a program
    name in [sys.argv] a run prints exactly one line after what was
    already written and then either ends normally or raises
    [SystemExit(1)]; it never raises [IndexError].  Only an empty
    [sys.argv] makes the usage branch raise [IndexError], before anything
    is printed. *)
Theorem main_raises_only_system_exit (prog : str) (args : list str)
    (env : environ) (out : str) :
  (∃ text : str,
     main (prog :: args) env out = (out ++ text ++ [10], Ok tt)
     ∨ main (prog :: args) env out
       = (out ++ text ++ [10], Raise (SystemExit 1)))
  ∧ main [] env out = (out, Raise IndexError).
Proof.
  split; [|reflexivity].
  destruct (args_shape args) as [->|[[h ->]|[Hl Hh]]].
  - eexists. left. apply main_list.
  - eexists. left. apply main_host.
  - eexists. right. by apply main_usage.
Qed.

(** X3. For every environment, whichever branch runs, the returned
    document follows the output schema: its top-level keys are distinct,
    every group has a [hosts] list of strings and a [vars] mapping, and
    every value of [_meta.hostvars] is a mapping. *)
Theorem get_inventory_well_formed (env : environ) :
  well_formed_document (get_inventory env) = true.
Proof.
  destruct (selects_cases env) as [H|[H|H]].
  - rewrite get_inventory_provider by (by left). reflexivity.
  - rewrite get_inventory_provider by (by right). reflexivity.
  - rewrite get_inventory_static by done. reflexivity.
Qed.

Lemma static_document_inj (u1 u2 : str) (p1 p2 : json) :
  static_document u1 p1 = static_document u2 p2 → u1 = u2 ∧ p1 = p2.
Proof. unfold static_document. intros [= ? ?]. done. Qed.

Lemma of_opt_inj (o1 o2 : option str) : of_opt o1 = of_opt o2 → o1 = o2.
Proof. destruct o1, o2; simpl; congruence. Qed.

Lemma static_not_provider (env : environ) :
  selects_static env → ¬ selects_provider env.
Proof. intros [H1 H2] [H|H]; done. Qed.

(** X4. No environment changes which host is reported or where it is:
    the only hostname a group can list is [dev-server], the only key
    [_meta.hostvars] can have is [dev-server], and the only [ansible_host]
    a host can carry is 192.168.88.2. *)
Theorem only_host_is_dev_server (env : environ) (h : str) :
  (h ∈ all_hosts (get_inventory env) → h = ("dev-server" : str))
  ∧ (h ∈ hostvars_keys (get_inventory env) → h = ("dev-server" : str))
  ∧ (∀ v : json,
       lookup_path (JDict (get_inventory env))
         [("_meta" : str); ("hostvars" : str); h; ("ansible_host" : str)]
       = Some v →
       h = ("dev-server" : str) ∧ v = JStr "192.168.88.2").
Proof.
  destruct (selects_cases env) as [H|[H|H]].
  - rewrite get_inventory_provider by (by left).
    split; [intros Hin; by apply elem_of_nil in Hin|].
    split; [intros Hin; by apply elem_of_nil in Hin|]. intros v Hv. done.
  - rewrite get_inventory_provider by (by right).
    split; [intros Hin; by apply elem_of_nil in Hin|].
    split; [intros Hin; by apply elem_of_nil in Hin|]. intros v Hv. done.
  - rewrite get_inventory_static by done.
    set (user := getenv_default env "ANSIBLE_USER" "ansible").
    set (password := of_opt (getenv env "ANSIBLE_PASSWORD")).
    clearbody user password.
    split; [intros Hin; by apply list_elem_of_singleton in Hin|].
    split; [intros Hin; by apply list_elem_of_singleton in Hin|].
    intros v. rewrite lookup_path_cons.
    assert (dict_get (static_document user password) "_meta" =
            Some (JDict
                    [ ("hostvars" : str,
                       JDict
                         [ ("dev-server" : str,
                            JDict
                              [ ("ansible_host" : str, JStr "192.168.88.2");
                                ("ansible_password" : str, password) ]) ]) ]))
      as -> by reflexivity.
    rewrite lookup_path_cons.
    assert (∀ x, dict_get [ ("hostvars" : str, x) ] "hostvars" = Some x)
      as -> by reflexivity.
    rewrite lookup_path_cons. cbn [dict_get].
    destruct (decide (("dev-server" : str) = h)) as [<-|Hne]; [|done].
    intros [= <-]. done.
Qed.

(** X5. The document is the bare base document exactly when the selector
    names a provider, so a reader of the output can tell the static
    source from a provider but not one provider from the other: any two
    environments that select a provider give the same output for every
    argument vector, whatever else they contain. *)
Theorem base_document_iff_provider (env : environ) :
  (get_inventory env = base_document ↔ selects_provider env)
  ∧ (∀ (env' : environ) (argv : list str),
       selects_provider env → selects_provider env' →
       run argv env = run argv env').
Proof.
  split.
  - split; [|apply get_inventory_provider].
    intros Hdoc. destruct (selects_cases env) as [H|[H|H]];
      [by left | by right |].
    rewrite get_inventory_static in Hdoc by done. discriminate Hdoc.
  - intros env' argv H H'. unfold run, main.
    by rewrite (get_inventory_provider env H), (get_inventory_provider env' H').
Qed.

(** X6. On the static path two environments give the same document
    exactly when they have the same ANSIBLE_PASSWORD, an unset one being
    different from an empty one, and the same user once the fallback is
    applied, an unset ANSIBLE_USER being the same as ["ansible"]. *)
Theorem static_documents_equal_iff (env1 env2 : environ)
    (Hsel1 : selects_static env1) (Hsel2 : selects_static env2) :
  get_inventory env1 = get_inventory env2
  ↔ getenv env1 "ANSIBLE_PASSWORD" = getenv env2 "ANSIBLE_PASSWORD"
    ∧ getenv_default env1 "ANSIBLE_USER" "ansible"
      = getenv_default env2 "ANSIBLE_USER" "ansible".
Proof.
  rewrite !get_inventory_static by done. split.
  - intros [Hu Hp]%static_document_inj. split; [by apply of_opt_inj | done].
  - intros [-> ->]. done.
Qed.

Lemma static_documents_equal_iff_witness :
  (get_inventory ∅
   = get_inventory {[ ("ANSIBLE_USER" : str) := ("ansible" : str) ]}
   ↔ getenv ∅ "ANSIBLE_PASSWORD"
     = getenv {[ ("ANSIBLE_USER" : str) := ("ansible" : str) ]}
         "ANSIBLE_PASSWORD"
     ∧ getenv_default ∅ "ANSIBLE_USER" "ansible"
       = getenv_default {[ ("ANSIBLE_USER" : str) := ("ansible" : str) ]}
           "ANSIBLE_USER" "ansible")
  ∧ get_inventory ∅
    = get_inventory {[ ("ANSIBLE_USER" : str) := ("ansible" : str) ]}
  ∧ get_inventory ∅
    ≠ get_inventory {[ ("ANSIBLE_PASSWORD" : str) := ("" : str) ]}.
Proof.
  assert (Hsel1 : selects_static ∅) by (vm_compute; split; discriminate).
  assert (Hsel2 : selects_static
                    {[ ("ANSIBLE_USER" : str) := ("ansible" : str) ]})
    by (vm_compute; split; discriminate).
  assert (Hsel3 : selects_static
                    {[ ("ANSIBLE_PASSWORD" : str) := ("" : str) ]})
    by (vm_compute; split; discriminate).
  split; [exact (static_documents_equal_iff _ _ Hsel1 Hsel2)|].
  split.
  - apply (static_documents_equal_iff _ _ Hsel1 Hsel2). by vm_compute.
  - intros Heq. apply (static_documents_equal_iff _ _ Hsel1 Hsel3) in Heq.
    destruct Heq as [Hp _]. vm_compute in Hp. discriminate Hp.
Defined.

(** ** What [json.dumps] can print *)

Lemma json_ind_nested (P : json → Prop)
    (Hnull : P JNull)
    (Hstr : ∀ s, P (JStr s))
    (Hlist : ∀ l, Forall P l → P (JList l))
    (Hdict : ∀ d : list (str * json), Forall (λ kv, P kv.2) d → P (JDict d)) :
  ∀ o, P o.
Proof.
  fix IH 1. intros [|s|l|d].
  - exact Hnull.
  - apply Hstr.
  - apply Hlist. induction l as [|x l IHl]; constructor; [apply IH | exact IHl].
  - apply Hdict.
    induction d as [|[k v] d IHd]; constructor; [apply IH | exact IHd].
Qed.

Ltac literal_printable :=
  apply (bool_decide_unpack _); vm_compute; exact I.

Lemma hex_digit_printable (n : N) : n < 16 → printable (hex_digit n).
Proof.
  intros Hn. unfold printable, hex_digit.
  destruct (n <? 10) eqn:E; [apply N.ltb_lt in E | apply N.ltb_ge in E]; lia.
Qed.

Lemma hex4_printable (n : N) : Forall printable (hex4 n).
Proof.
  unfold hex4.
  repeat first [apply Forall_nil_2 | apply Forall_cons_2];
    apply hex_digit_printable; by apply N.mod_lt.
Qed.

Lemma escape_char_printable (c : N) : Forall printable (escape_char c).
Proof.
  unfold escape_char.
  repeat match goal with
         | |- context [if ?b then _ else _] => destruct b eqn:?
         end;
    rewrite ?Forall_app; repeat split;
    try apply hex4_printable; try literal_printable.
  match goal with
  | H : (_ <=? _) && (_ <=? _) = true |- _ =>
      apply andb_true_iff in H as [?%N.leb_le ?%N.leb_le]
  end.
  apply Forall_cons_2; [by right | apply Forall_nil_2].
Qed.

Lemma encode_basestring_ascii_printable (s : str) :
  Forall printable (encode_basestring_ascii s).
Proof.
  unfold encode_basestring_ascii. rewrite !Forall_app.
  split; [literal_printable|]. split; [|literal_printable].
  apply Forall_concat, Forall_fmap, Forall_forall.
  intros c _. apply escape_char_printable.
Qed.

Lemma join_printable (sep : str) (l : list str) :
  Forall printable sep → Forall (Forall printable) l →
  Forall printable (join sep l).
Proof.
  intros Hsep Hl. induction Hl as [|x l Hx Hl IH]; [constructor|].
  destruct l as [|y l]; [exact Hx|].
  change (Forall printable (x ++ sep ++ join sep (y :: l))).
  rewrite !Forall_app. done.
Qed.

Lemma newline_indent_printable (indent : option nat) (level : nat) :
  Forall printable (newline_indent indent level).
Proof.
  destruct indent as [n|]; [|constructor]. simpl.
  constructor; [by left|]. apply Forall_forall.
  intros c Hc. apply list_elem_of_In, repeat_spec in Hc. subst c.
  by right.
Qed.

Lemma item_separator_printable (indent : option nat) :
  Forall printable (item_separator indent).
Proof. destruct indent; literal_printable. Qed.

Lemma iterencode_list (indent : option nat) (level : nat) (l : list json) :
  l ≠ [] →
  iterencode indent level (JList l) =
  ("[" : str) ++ newline_indent indent (S level)
  ++ join (item_separator indent ++ newline_indent indent (S level))
       (map (iterencode indent (S level)) l)
  ++ newline_indent indent level ++ ("]" : str).
Proof. destruct l; [done | reflexivity]. Qed.

Lemma iterencode_dict (indent : option nat) (level : nat) (d : dict) :
  d ≠ [] →
  iterencode indent level (JDict d) =
  ("{" : str) ++ newline_indent indent (S level)
  ++ join (item_separator indent ++ newline_indent indent (S level))
       (map (fun kv : str * json =>
               encode_basestring_ascii kv.1 ++ key_separator
               ++ iterencode indent (S level) kv.2) d)
  ++ newline_indent indent level ++ ("}" : str).
Proof.
  destruct d as [|kv d]; [done|]. intros _. cbn [iterencode].
  do 2 f_equal. f_equal. f_equal. apply map_ext. by intros [k v].
Qed.

Lemma iterencode_printable (indent : option nat) (o : json) :
  ∀ level, Forall printable (iterencode indent level o).
Proof.
  induction o as [|s|l IH|d IH] using json_ind_nested; intros level.
  - literal_printable.
  - apply encode_basestring_ascii_printable.
  - destruct (decide (l = [])) as [->|Hne]; [literal_printable|].
    rewrite iterencode_list by done. rewrite !Forall_app.
    split; [literal_printable|].
    split; [apply newline_indent_printable|].
    split; [|split; [apply newline_indent_printable | literal_printable]].
    apply join_printable.
    + rewrite Forall_app. split;
        [apply item_separator_printable | apply newline_indent_printable].
    + apply Forall_fmap. eapply Forall_impl; [exact IH|]. intros x Hx. apply Hx.
  - destruct (decide (d = [])) as [->|Hne]; [literal_printable|].
    rewrite iterencode_dict by done. rewrite !Forall_app.
    split; [literal_printable|].
    split; [apply newline_indent_printable|].
    split; [|split; [apply newline_indent_printable | literal_printable]].
    apply join_printable.
    + rewrite Forall_app. split;
        [apply item_separator_printable | apply newline_indent_printable].
    + apply Forall_fmap. eapply Forall_impl; [exact IH|]. intros kv Hkv.
      unfold compose. cbv beta in *. rewrite !Forall_app.
      split; [apply encode_basestring_ascii_printable|].
      split; [literal_printable | apply Hkv].
Qed.

(** X7. Whatever the environment holds, [--list] and [--host] print
    plain ASCII: every character of the output is a line feed or a
    printable character from the space to the tilde, because
    [json.dumps] escapes everything else in every string it prints. *)
Theorem json_output_is_ascii (prog : str) (env : environ) :
  (∀ (obj : json) (indent : option nat), Forall printable (dumps obj indent))
  ∧ Forall printable (stdout (run [prog; ("--list" : str)] env))
  ∧ ∀ h : str, Forall printable (stdout (run [prog; ("--host" : str); h] env)).
Proof.
  split; [intros obj indent; apply iterencode_printable|].
  split.
  - rewrite run_list. simpl. rewrite Forall_app.
    split; [apply iterencode_printable | literal_printable].
  - intros h. rewrite run_host. literal_printable.
Qed.

(** ** The order of the keys after a merge *)

Lemma dict_keys_setitem (d : dict) (k : str) (v : json) :
  dict_keys (dict_setitem d k v) =
  if decide (k ∈ dict_keys d) then dict_keys d else dict_keys d ++ [k].
Proof.
  induction d as [|[k0 v0] d IH].
  - destruct (decide (k ∈ dict_keys [])) as [Hin|_]; [|done].
    by apply elem_of_nil in Hin.
  - cbn [dict_setitem].
    change (dict_keys ((k0, v0) :: d)) with (k0 :: dict_keys d).
    destruct (decide (k0 = k)) as [->|Hne].
    + change (dict_keys ((k, v) :: d)) with (k :: dict_keys d).
      rewrite decide_True by apply list_elem_of_here. done.
    + change (dict_keys ((k0, v0) :: dict_setitem d k v))
        with (k0 :: dict_keys (dict_setitem d k v)).
      rewrite IH. destruct (decide (k ∈ dict_keys d)) as [Hin|Hnin].
      * rewrite decide_True by (by apply list_elem_of_further). done.
      * rewrite decide_False; [done|].
        rewrite elem_of_cons. intros [?|?]; done.
Qed.

Lemma filter_fresh_app (ks new l : list str) :
  (∀ k, k ∈ new → k ∉ l) →
  filter (λ k, k ∉ ks ++ new) l = filter (λ k, k ∉ ks) l.
Proof.
  intros Hfresh. induction l as [|x l IH]; [done|].
  rewrite !filter_cons.
  rewrite IH by (intros k Hk Hin; apply (Hfresh k Hk); by right).
  assert (x ∉ new) by (intros Hx; apply (Hfresh x Hx); by left).
  destruct (decide (x ∉ ks)) as [Hx|Hx].
  - rewrite decide_True; [done|]. rewrite elem_of_app. intros [?|?]; done.
  - rewrite decide_False; [done|]. intros Hn. apply Hx. intros ?.
    apply Hn, elem_of_app. by left.
Qed.

Lemma dict_keys_update (other d : dict) :
  NoDup (dict_keys other) →
  dict_keys (dict_update d other) =
  dict_keys d ++ filter (λ k, k ∉ dict_keys d) (dict_keys other).
Proof.
  revert d. induction other as [|[k v] other IH]; intros d Hnd.
  - simpl. by rewrite app_nil_r.
  - simpl in Hnd. apply NoDup_cons in Hnd as [Hk Hnd].
    change (dict_update d ((k, v) :: other))
      with (dict_update (dict_setitem d k v) other).
    rewrite IH by done. rewrite dict_keys_setitem.
    change (dict_keys ((k, v) :: other)) with (k :: dict_keys other).
    rewrite filter_cons.
    destruct (decide (k ∈ dict_keys d)) as [Hin|Hnin].
    + rewrite decide_False by (intros Hn; by apply Hn). done.
    + rewrite decide_True by done.
      rewrite filter_fresh_app.
      * by rewrite <- app_assoc.
      * intros k' ->%list_elem_of_singleton. done.
Qed.

Lemma dict_update_NoDup (other d : dict) :
  NoDup (dict_keys d) → NoDup (dict_keys (dict_update d other)).
Proof.
  revert d. induction other as [|[k v] other IH]; intros d Hnd; [done|].
  change (dict_update d ((k, v) :: other))
    with (dict_update (dict_setitem d k v) other).
  apply IH. rewrite dict_keys_setitem.
  destruct (decide (k ∈ dict_keys d)) as [Hin|Hnin]; [done|].
  apply NoDup_app. split; [done|]. split; [|apply NoDup_singleton].
  intros k' Hk' ->%list_elem_of_singleton. done.
Qed.

(** X8. The merge [inventory.update(partial)] keeps every key the
    document already has at its place, appends the new keys of the partial
    result in their order, and never produces a key twice; this is why
    [_meta] stays the first key of the printed document. *)
Theorem update_keeps_key_order (d other : dict)
    (Hother : NoDup (dict_keys other)) :
  dict_keys (dict_update d other) =
  dict_keys d ++ filter (λ k, k ∉ dict_keys d) (dict_keys other)
  ∧ (NoDup (dict_keys d) → NoDup (dict_keys (dict_update d other))).
Proof.
  split; [by apply dict_keys_update | apply dict_update_NoDup].
Qed.

Lemma update_keeps_key_order_witness :
  dict_keys
    (dict_update base_document
       [ ("servers" : str, JNull); ("_meta" : str, JNull);
         ("databases" : str, JNull) ])
  = [("_meta" : str); ("servers" : str); ("databases" : str)].
Proof.
  assert (Hother : NoDup (dict_keys
                            [ ("servers" : str, JNull); ("_meta" : str, JNull);
                              ("databases" : str, JNull) ]))
    by (apply (bool_decide_unpack _); vm_compute; exact I).
  destruct (update_keeps_key_order base_document _ Hother) as [Hkeys _].
  rewrite Hkeys. by vm_compute.
Defined.
